(** * DuckPoll cog: a shallow embedding of [duckpoll/duckpoll.py]

    The cog keeps a list of tracked polls in the host framework's
    configuration store, listens to reaction and deletion events, expires
    old polls once a minute and renders vote tallies.  The handlers are
    embedded as state-passing functions over a [World] (the stored list and
    the log of calls made to the chat service); Python exceptions are the
    [Raise] results of an error monad. *)

From stdpp Require Import gmap strings list pretty.
From Stdlib Require Import ZArith Lia.

Open Scope Z_scope.

(** ** Python runtime fragments *)

Inductive exn : Type :=
  | TypeError
  | ValueError
  | ZeroDivisionError
  | AttributeError
  | OverflowError
  | NotFound           (* discord.NotFound *)
  | Forbidden          (* discord.Forbidden *)
  | HTTPException.     (* discord.HTTPException *)

Inductive result (A : Type) : Type :=
  | Ok (a : A)
  | Raise (e : exn).

Arguments Ok {A} a.
Arguments Raise {A} e.

Definition rbind {A B} (r : result A) (k : A -> result B) : result B :=
  match r with
  | Ok a => k a
  | Raise e => Raise e
  end.

(** The values handed to the builtin [all] in this module: a comparison
    result, or an iterable of comparison results. *)
Inductive pyval : Type :=
  | PBool (b : bool)
  | PIter (bs : list bool).

(** The builtin [all]: it takes exactly one positional argument, which
    has to be iterable; everything else is a [TypeError]. *)
Definition builtin_all (args : list pyval) : result bool :=
  match args with
  | [PIter bs] => Ok (forallb id bs)
  | [PBool _] => Raise TypeError      (* a bool is not iterable *)
  | _ => Raise TypeError              (* all() takes exactly one argument *)
  end.

(** [next] on [filter(pred, it)], where [it] is a list iterator standing at
    index [i] and [rest] is the part of the list from [i] on.  The predicate
    receives the index of the element it is called on.  The answer is the
    accepted element with the index after it, or [None] when the iterator is
    exhausted. *)
Fixpoint filter_scan {A} (pred : nat -> A -> result bool) (rest : list A) (i : nat)
  : result (option (A * nat)) :=
  match rest with
  | [] => Ok None
  | x :: rest' =>
      match pred i x with
      | Raise e => Raise e
      | Ok true => Ok (Some (x, S i))
      | Ok false => filter_scan pred rest' (S i)
      end
  end.

Definition filter_next {A} (pred : nat -> A -> result bool) (l : list A) (i : nat)
  : result (option (A * nat)) :=
  filter_scan pred (drop i l) i.

(** [list(filter(pred, l))] and every other full traversal of the filter
    over a list that is not mutated meanwhile. *)
Fixpoint py_filter {A} (pred : A -> result bool) (l : list A) : result (list A) :=
  match l with
  | [] => Ok []
  | x :: l' =>
      rbind (pred x) (fun b =>
      rbind (py_filter pred l') (fun keep =>
      Ok (if b then x :: keep else keep)))
  end.

(** [(x,) = filter(pred, l)]: the unpacking asks for a first element, then
    for a second one; none or two is a [ValueError]. *)
Definition unpack_single {A} (pred : A -> result bool) (l : list A) : result A :=
  rbind (filter_next (fun _ => pred) l 0) (fun first =>
  match first with
  | None => Raise ValueError
  | Some (x, i) =>
      rbind (filter_next (fun _ => pred) l i) (fun second =>
      match second with
      | None => Ok x
      | Some _ => Raise ValueError
      end)
  end).

(** [l.remove(x)]: drops the first element equal to [x]; [ValueError] when
    there is none. *)
Fixpoint py_list_remove {A} `{EqDecision A} (x : A) (l : list A) : result (list A) :=
  match l with
  | [] => Raise ValueError
  | y :: l' =>
      if decide (y = x) then Ok l'
      else rbind (py_list_remove x l') (fun r => Ok (y :: r))
  end.

(** [sorted(l, key=key)]: ascending and stable, here by insertion from the
    right (an element goes before the later ones with the same key). *)
Fixpoint insert_by_key {A} (key : A -> Z) (x : A) (l : list A) : list A :=
  match l with
  | [] => [x]
  | y :: l' => if key x <=? key y then x :: y :: l' else y :: insert_by_key key x l'
  end.

Definition py_sorted {A} (key : A -> Z) (l : list A) : list A :=
  foldr (fun x acc => insert_by_key key x acc) [] l.

(** The exact quotient [num / den], [den <> 0], rounded to the nearest
    integer, halves to even.  This is not Python's float arithmetic; it
    serves the fixtures below, on inputs where the quotient is whole. *)
Definition round_half_even (num den : Z) : Z :=
  let n := if den <? 0 then - num else num in
  let d := Z.abs den in
  let q := n / d in
  let r := n mod d in
  match 2 * r ?= d with
  | Lt => q
  | Gt => q + 1
  | Eq => if Z.even q then q else q + 1
  end.

(** [s.ljust(width, fill)], the length counted in characters. *)
Definition ljust (chars : list string) (width : nat) (fill : string) : list string :=
  chars ++ replicate (width - length chars)%nat fill.

(** ** Data model *)

(** An entry of the stored list:
    [{guild_id: int, channel_id: int, message_id: int, created_at: float}].
    Timestamps are kept as exact numbers of seconds; the code only
    compares them and subtracts a constant. *)
Record TrackedPoll : Type := {
  guild_id : Z;
  channel_id : Z;
  message_id : Z;
  created_at : Z
}.

#[global] Instance TrackedPoll_eq_dec : EqDecision TrackedPoll.
Proof. solve_decision. Defined.

(** [discord.Reaction] as the cog reads it: [str(r.emoji)], [r.count] and
    the ids of [await r.users().flatten()]. *)
Record Reaction : Type := {
  r_emoji : string;
  r_count : Z;
  r_users : list Z
}.

Record Message : Type := {
  msg_guild : option Z;        (* message.guild, None in a DM *)
  msg_channel : Z;             (* message.channel.id *)
  msg_id : Z;                  (* message.id *)
  msg_author_bot : bool;       (* message.author.bot *)
  msg_reactions : list Reaction
}.

Record User : Type := {
  user_id : Z;
  user_bot : bool
}.

(** The [reaction] argument of [on_reaction_add]. *)
Record ReactionEvent : Type := {
  re_emoji : string;           (* str(reaction.emoji) *)
  re_message : Message
}.

Record Context : Type := {
  ctx_guild : option Z;
  ctx_channel : Z;
  ctx_invoked_subcommand : bool
}.

Record Embed : Type := {
  e_title : string;
  e_description : string;
  e_fields : list (string * string)     (* name, value *)
}.

(** Second argument of [make_stats_embed]: [duck_stats] passes the stored
    dict, [send_stats] passes the fetched [discord.Message]. *)
Inductive EmbedData : Type :=
  | DataPoll (p : TrackedPoll)
  | DataMessage (m : Message).

(** Calls made to the chat service and to the host, in order. *)
Inductive action : Type :=
  | HttpGet (url : string)
  | SendText (channel : Z) (content : string)
  | SendFile (channel : Z) (content : string) (filename : string)
  | SendEmbed (channel : Z) (e : Embed)
  | AddReaction (message : Z) (emoji : string)
  | ClearReaction (message : Z) (emoji : string)
  | RemoveReaction (message : Z) (emoji : string) (user : Z)
  | CreateTask (m : TrackedPoll).        (* bot.create_task(send_stats(m)) *)

Record World : Type := {
  w_messages : list TrackedPoll;         (* config.messages *)
  w_log : list action;
  w_next_id : Z                          (* id of the next message sent *)
}.

(** What the cog asks of its collaborators and of the runtime.
    [env_bot_has_create_task] says whether the bot object has an attribute
    [create_task]; the bot of the host this cog is written for has none.
    [env_round_ratio v s k] is [round(v / s * k)] as the runtime's floats
    compute it, for [s <> 0]; it raises where they do ([OverflowError]). *)
Record Env : Type := {
  env_has_guild : Z -> bool;                      (* bot.get_guild *)
  env_has_channel : Z -> Z -> bool;               (* guild.get_channel *)
  env_fetch_message : Z -> Z -> result Message;   (* channel.fetch_message *)
  env_time : nat -> Z;                            (* k-th reading of time.time() *)
  env_bot_has_create_task : bool;                 (* hasattr(bot, "create_task") *)
  env_round_ratio : Z -> Z -> Z -> result Z       (* round(v / s * k) *)
}.

(** ** The handler monad: state and exceptions *)

Definition M (A : Type) : Type := World -> result A * World.

Definition ret {A} (a : A) : M A := fun w => (Ok a, w).

Definition raise {A} (e : exn) : M A := fun w => (Raise e, w).

Definition bindM {A B} (c : M A) (k : A -> M B) : M B :=
  fun w =>
    match c w with
    | (Ok a, w') => k a w'
    | (Raise e, w') => (Raise e, w')
    end.

Notation "'let*' x := c 'in' k" := (bindM c (fun x => k))
  (at level 10, x name, c at level 100, k at level 200).
Notation "'run' c 'in' k" := (bindM c (fun _ => k))
  (at level 10, c at level 100, k at level 200).

Definition lift {A} (r : result A) : M A := fun w => (r, w).

Definition emit (a : action) : M unit :=
  fun w => (Ok tt, {| w_messages := w_messages w;
                      w_log := w_log w ++ [a];
                      w_next_id := w_next_id w |}).

Definition get_messages : M (list TrackedPoll) := fun w => (Ok (w_messages w), w).

Definition set_messages (ms : list TrackedPoll) : M unit :=
  fun w => (Ok tt, {| w_messages := ms;
                      w_log := w_log w;
                      w_next_id := w_next_id w |}).

(** [await ctx.send(content, file=...)]: the message gets a fresh id. *)
Definition send_file (channel : Z) (content filename : string) : M Z :=
  fun w => (Ok (w_next_id w),
            {| w_messages := w_messages w;
               w_log := w_log w ++ [SendFile channel content filename];
               w_next_id := w_next_id w + 1 |}).

Fixpoint for_each {A} (l : list A) (body : A -> M unit) : M unit :=
  match l with
  | [] => ret tt
  | x :: l' => run body x in for_each l' body
  end.

(** ** The cog *)

Definition DUCK_IMAGE_URL : string := "https://i.imgur.com/xjzCAiR.jpg".

Definition EMOJIS : list string :=
  ["1️⃣"; "2️⃣"; "3️⃣"; "4️⃣"; "5️⃣"; "6️⃣"; "7️⃣"; "8️⃣"; "9️⃣"].

Definition NO_POLL_TEXT : string := "No existing duck polls for this channel found".

Definition DAY : Z := 60 * 60 * 24.

(** The three exception classes named by the [except] clauses. *)
Definition is_fetch_failure (e : exn) : bool :=
  match e with
  | NotFound | Forbidden | HTTPException => true
  | _ => false
  end.

Section Cog.

Variable env : Env.

(** *** Events *)

(** The lambda handed to [filter] in [on_reaction_add] and in
    [on_message_delete]: three comparisons, passed to [all] as three
    positional arguments. *)
Definition is_poll_of (gid : Z) (message : Message) (m : TrackedPoll) : result bool :=
  builtin_all [PBool (guild_id m =? gid);
               PBool (channel_id m =? msg_channel message);
               PBool (message_id m =? msg_id message)].

(** Number of reactions on the message, over all labels, that the user
    holds. *)
Definition reactions_of (uid : Z) (message : Message) : nat :=
  length (List.filter (fun x => x =? uid) (concat (map r_users (msg_reactions message)))).

Definition on_reaction_add (reaction : ReactionEvent) (user : User) : M unit :=
  let message := re_message reaction in
  match user_bot user, msg_guild message with
  | true, _ | _, None => ret tt
  | false, Some gid =>
      let* messages := get_messages in
      let* found := lift (py_filter (is_poll_of gid message) messages) in
      match found with
      | [] => ret tt
      | _ :: _ =>
          if negb (bool_decide (re_emoji reaction ∈ EMOJIS)) then
            emit (ClearReaction (msg_id message) (re_emoji reaction))
          else if (1 <? reactions_of (user_id user) message)%nat then
            emit (RemoveReaction (msg_id message) (re_emoji reaction) (user_id user))
          else ret tt
      end
  end.

Definition on_message_delete (message : Message) : M unit :=
  match msg_guild message, msg_author_bot message with
  | None, _ | _, false => ret tt
  | Some gid, true =>
      let* messages := get_messages in
      fun w =>
        match unpack_single (is_poll_of gid message) messages with
        | Raise ValueError => (Ok tt, w)
        | Raise e => (Raise e, w)
        | Ok stored_message =>
            (let* messages' := lift (py_list_remove stored_message messages) in
             set_messages messages') w
        end
  end.

(** *** Tasks *)

(** The lambda of [cleanup_messages]; [k] counts the readings of the
    clock, one per element the filter looks at. *)
Definition is_expired (k : nat) (m : TrackedPoll) : result bool :=
  Ok (created_at m <? env_time env k - DAY).

(** The list comprehension of [cleanup_messages]: the filter walks the
    list by index while the body removes from the same list.  For each
    element the filter yields, the body first looks up [self.bot.create_task]
    (an [AttributeError] where the bot has none), calls it, and then removes
    the element.  The answer carries the list and the calls made so far,
    also when the pass raises.  [fuel] bounds the number of elements the
    comprehension produces. *)
Fixpoint cleanup_loop (fuel : nat) (messages : list TrackedPoll) (i : nat)
         (log : list action) : option (result unit * list TrackedPoll * list action) :=
  match fuel with
  | O => None
  | S fuel' =>
      match filter_next is_expired messages i with
      | Raise e => Some (Raise e, messages, log)
      | Ok None => Some (Ok tt, messages, log)
      | Ok (Some (m, i')) =>
          if env_bot_has_create_task env then
            match py_list_remove m messages with
            | Raise e => Some (Raise e, messages, log ++ [CreateTask m])
            | Ok messages' => cleanup_loop fuel' messages' i' (log ++ [CreateTask m])
            end
          else Some (Raise AttributeError, messages, log)
      end
  end.

Definition cleanup_messages (w : World) : option (result unit * World) :=
  match cleanup_loop (S (length (w_messages w))) (w_messages w) 0 [] with
  | None => None
  | Some (r, messages', tasks) =>
      Some (r, {| w_messages := messages';
                  w_log := w_log w ++ tasks;
                  w_next_id := w_next_id w |})
  end.

(** *** Utility methods *)

Definition get_duck_image : M string :=
  run emit (HttpGet DUCK_IMAGE_URL) in ret "duck.jpg".

(** One step of the dict comprehension of [get_stats]. *)
Definition count_reaction (d : gmap string Z) (r : Reaction) : gmap string Z :=
  if bool_decide (r_emoji r ∈ EMOJIS)
  then <[r_emoji r := r_count r - 1]> d
  else d.

Definition get_stats (message : Message) : list (string * Z) :=
  let reactions : gmap string Z := foldl count_reaction ∅ (msg_reactions message) in
  map (fun emoji => (emoji, default 0 (reactions !! emoji))) EMOJIS.

(** The bar of one field: a full block for each of the [tenths] (none when
    the number is not positive), padded to ten. *)
Definition bar (tenths : Z) : string :=
  String.concat "" (ljust (replicate (Z.to_nat tenths) "█") 10 "░").

(** One [embed.add_field]: the name, then the two divisions of the value;
    a division by zero comes before any float is made. *)
Definition make_field (sum_of_votes : Z) (item : string * Z) : result (string * string) :=
  let name := item.1 +:+ " - " +:+ pretty item.2 in
  if sum_of_votes =? 0 then Raise ZeroDivisionError
  else
    rbind (env_round_ratio env item.2 sum_of_votes 10) (fun tenths =>
    rbind (env_round_ratio env item.2 sum_of_votes 100) (fun percent =>
    Ok (name, bar tenths +:+ " " +:+ pretty percent +:+ "%"))).

Fixpoint map_result {A B} (f : A -> result B) (l : list A) : result (list B) :=
  match l with
  | [] => Ok []
  | x :: l' =>
      rbind (f x) (fun y => rbind (map_result f l') (fun ys => Ok (y :: ys)))
  end.

Definition jump_link (data : EmbedData) : result string :=
  match data with
  | DataPoll p =>
      Ok ("[Jump to message](https://discord.com/channels/"
            +:+ pretty (guild_id p) +:+ "/" +:+ pretty (channel_id p)
            +:+ "/" +:+ pretty (message_id p) +:+ ")")
  | DataMessage _ => Raise TypeError    (* a Message is not subscriptable *)
  end.

Definition make_stats_embed (stats : list (string * Z)) (data : EmbedData) : result Embed :=
  let sum_of_votes := foldr Z.add 0 (map snd stats) in
  rbind (jump_link data) (fun description =>
  rbind (map_result (make_field sum_of_votes) stats) (fun fields =>
  Ok {| e_title := "Duck poll stats";
        e_description := description;
        e_fields := fields |})).

Definition send_stats (message : TrackedPoll) (return_error : bool) : M unit :=
  if negb (env_has_guild env (guild_id message)) then ret tt
  else if negb (env_has_channel env (guild_id message) (channel_id message)) then ret tt
  else
    match env_fetch_message env (channel_id message) (message_id message) with
    | Raise e =>
        if is_fetch_failure e then
          if return_error then emit (SendText (channel_id message) NO_POLL_TEXT)
          else ret tt
        else raise e
    | Ok fetched =>
        let stats := get_stats fetched in
        let* embed := lift (make_stats_embed stats (DataMessage fetched)) in
        emit (SendEmbed (channel_id message) embed)
    end.

(** *** Commands *)

Definition duck (ctx : Context) : M unit :=
  if ctx_invoked_subcommand ctx then ret tt
  else
    let* file := get_duck_image in
    let* message := send_file (ctx_channel ctx)
                      "On a rubber duck scale, how's your day going?" file in
    for_each EMOJIS (fun emoji => emit (AddReaction message emoji)).

(** The lambda handed to [filter] in [duck_stats]: two comparisons passed
    to [all]; the arguments are evaluated first, and [ctx.guild] is
    [None] outside a guild. *)
Definition is_channel_poll (ctx : Context) (m : TrackedPoll) : result bool :=
  match ctx_guild ctx with
  | None => Raise AttributeError
  | Some gid =>
      builtin_all [PBool (guild_id m =? gid);
                   PBool (channel_id m =? ctx_channel ctx)]
  end.

(** [duck_stats] from [poll = channel_duck_polls[0]] on. *)
Definition show_poll (ctx : Context) (poll : TrackedPoll) : M unit :=
  match env_fetch_message env (ctx_channel ctx) (message_id poll) with
  | Raise e =>
      if is_fetch_failure e then emit (SendText (ctx_channel ctx) NO_POLL_TEXT)
      else raise e
  | Ok message =>
      let stats := get_stats message in
      let* embed := lift (make_stats_embed stats (DataPoll poll)) in
      emit (SendEmbed (msg_channel message) embed)
  end.

Definition duck_stats (ctx : Context) : M unit :=
  let* messages := get_messages in
  let* matching := lift (py_filter (is_channel_poll ctx) messages) in
  match py_sorted created_at matching with
  | [] => emit (SendText (ctx_channel ctx) NO_POLL_TEXT)
  | poll :: _ => show_poll ctx poll
  end.

End Cog.

(** ** One expiry pass in closed form, for a bot that has [create_task] *)

(** What a pass over [l] would keep, were it run by a bot that has
    [create_task]: the element that follows a removed one is never looked
    at, whatever its age. *)
Fixpoint sweep_kept (expired : TrackedPoll -> bool) (l : list TrackedPoll)
  : list TrackedPoll :=
  match l with
  | [] => []
  | x :: l' =>
      if expired x then
        match l' with
        | [] => []
        | y :: l'' => y :: sweep_kept expired l''
        end
      else x :: sweep_kept expired l'
  end.

(** What the same pass removes, in order. *)
Fixpoint sweep_removed (expired : TrackedPoll -> bool) (l : list TrackedPoll)
  : list TrackedPoll :=
  match l with
  | [] => []
  | x :: l' =>
      if expired x then
        x :: match l' with
             | [] => []
             | _ :: l'' => sweep_removed expired l''
             end
      else sweep_removed expired l'
  end.

Definition older_than_a_day (now : Z) (m : TrackedPoll) : bool :=
  created_at m <? now - DAY.

(** ** Fixtures used by the concrete evaluations *)

Definition poll_a : TrackedPoll :=
  {| guild_id := 1; channel_id := 10; message_id := 100; created_at := 1000 |}.

Definition poll_b : TrackedPoll :=
  {| guild_id := 1; channel_id := 10; message_id := 101; created_at := 2000 |}.

Definition world_of (ms : list TrackedPoll) : World :=
  {| w_messages := ms; w_log := []; w_next_id := 500 |}.

Definition alice : User := {| user_id := 7; user_bot := false |}.

Definition some_bot : User := {| user_id := 8; user_bot := true |}.

(** The bot's own id in the fixtures is 9: it holds every label it posted. *)
Definition poll_a_message (reactions : list Reaction) : Message :=
  {| msg_guild := Some 1; msg_channel := 10; msg_id := 100;
     msg_author_bot := true; msg_reactions := reactions |}.

Definition two_votes : list Reaction :=
  [ {| r_emoji := "1️⃣"; r_count := 2; r_users := [9; 7] |};
    {| r_emoji := "2️⃣"; r_count := 2; r_users := [9; 7] |} ].

Definition stray_label : list Reaction :=
  [ {| r_emoji := "1️⃣"; r_count := 1; r_users := [9] |};
    {| r_emoji := "🦆"; r_count := 1; r_users := [7] |} ].

(** Reaction counts [{1: 3 (with the bot), 2: 1 (the bot only)}]. *)
Definition three_and_one : list Reaction :=
  [ {| r_emoji := "1️⃣"; r_count := 3; r_users := [9; 7; 6] |};
    {| r_emoji := "2️⃣"; r_count := 1; r_users := [9] |} ].

Definition ctx_a : Context :=
  {| ctx_guild := Some 1; ctx_channel := 10; ctx_invoked_subcommand := false |}.

(** A float runtime for the fixtures: the exact quotient, rounded.  On the
    fixtures' tallies every quotient is a whole number. *)
Definition exact_round_ratio (v s k : Z) : result Z :=
  Ok (round_half_even (v * k) s).

(** A service on which every fetch fails with [NotFound], at time [now];
    the bot has no [create_task]. *)
Definition env_gone (now : Z) : Env :=
  {| env_has_guild := fun _ => true;
     env_has_channel := fun _ _ => true;
     env_fetch_message := fun _ _ => Raise NotFound;
     env_time := fun _ => now;
     env_bot_has_create_task := false;
     env_round_ratio := exact_round_ratio |}.

(** A service on which every fetch succeeds, the fetched message carrying
    the given reactions; the bot has no [create_task]. *)
Definition env_live (now : Z) (reactions : list Reaction) : Env :=
  {| env_has_guild := fun _ => true;
     env_has_channel := fun _ _ => true;
     env_fetch_message := fun channel mid =>
       Ok {| msg_guild := Some 1; msg_channel := channel; msg_id := mid;
             msg_author_bot := true; msg_reactions := reactions |};
     env_time := fun _ => now;
     env_bot_has_create_task := false;
     env_round_ratio := exact_round_ratio |}.

Definition poll_c : TrackedPoll :=
  {| guild_id := 1; channel_id := 10; message_id := 102; created_at := 99000 |}.

(** ** The cog under the host's dispatcher *)

(** What the host asks of the cog: the two listeners, a tick of the expiry
    loop, the two commands, and a task created by the expiry loop getting
    its turn. *)
Inductive event : Type :=
  | ReactionAdded (reaction : ReactionEvent) (user : User)
  | MessageDeleted (message : Message)
  | CleanupTick
  | DuckCommand (ctx : Context)
  | DuckStatsCommand (ctx : Context)
  | StatsTask (m : TrackedPoll).

(** One callback run to its end.  The host reports an exception and goes
    on, so what stays is the world the callback left behind. *)
Definition dispatch (env : Env) (ev : event) (w : World) : World :=
  match ev with
  | ReactionAdded reaction user => (on_reaction_add reaction user w).2
  | MessageDeleted message => (on_message_delete message w).2
  | CleanupTick =>
      match cleanup_messages env w with
      | Some (_, w') => w'
      | None => w
      end
  | DuckCommand ctx => (duck ctx w).2
  | DuckStatsCommand ctx => (duck_stats env ctx w).2
  | StatsTask m => (send_stats env m false w).2
  end.

(** Callbacks are served one after the other, each against the service as
    it is at that moment. *)
Fixpoint serve (evs : list (Env * event)) (w : World) : World :=
  match evs with
  | [] => w
  | (env, ev) :: evs' => serve evs' (dispatch env ev w)
  end.

(** The calls that take a reaction off a message or post a tally. *)
Definition removes_or_posts (a : action) : bool :=
  match a with
  | ClearReaction _ _ | RemoveReaction _ _ _ | SendEmbed _ _ => true
  | _ => false
  end.

Definition schedules (a : action) : bool :=
  match a with
  | CreateTask _ => true
  | _ => false
  end.

(** The labels of [EMOJIS] among the reactions of a message. *)
Definition recognised (rs : list Reaction) : list Reaction :=
  List.filter (fun r => bool_decide (r_emoji r ∈ EMOJIS)) rs.

Definition with_reactions (message : Message) (rs : list Reaction) : Message :=
  {| msg_guild := msg_guild message; msg_channel := msg_channel message;
     msg_id := msg_id message; msg_author_bot := msg_author_bot message;
     msg_reactions := rs |}.

(** The name [make_stats_embed] gives the field of one tally entry. *)
Definition field_name (item : string * Z) : string :=
  item.1 +:+ " - " +:+ pretty item.2.

(** ** Facts on the runtime fragments *)

Lemma builtin_all_several (a b : pyval) (rest : list pyval) :
  builtin_all (a :: b :: rest) = Raise TypeError.
Proof. destruct a; reflexivity. Qed.

Lemma is_poll_of_raises gid message m :
  is_poll_of gid message m = Raise TypeError.
Proof. apply builtin_all_several. Qed.

Lemma is_channel_poll_raises ctx m :
  is_channel_poll ctx m =
  Raise (if ctx_guild ctx is Some _ then TypeError else AttributeError).
Proof.
  unfold is_channel_poll. destruct (ctx_guild ctx); [apply builtin_all_several | reflexivity].
Qed.

Lemma py_filter_raises {A} (pred : A -> result bool) (e : exn) (l : list A) :
  (forall x, pred x = Raise e) -> l <> [] -> py_filter pred l = Raise e.
Proof.
  intros Hpred Hl. destruct l as [|x l']; [congruence |].
  simpl. rewrite Hpred. reflexivity.
Qed.

Lemma unpack_single_raises {A} (pred : A -> result bool) (e : exn) (l : list A) :
  (forall x, pred x = Raise e) -> l <> [] -> unpack_single pred l = Raise e.
Proof.
  intros Hpred Hl. destruct l as [|x l']; [congruence |].
  unfold unpack_single, filter_next. simpl. rewrite Hpred. reflexivity.
Qed.

(** ** The matching predicate *)

(** C2, as stated, fails: a reaction added by a bot account is turned away
    by the guard at the head of [on_reaction_add], so the handler returns
    without error although a poll is stored. *)
Lemma on_reaction_add_guard_returns :
  w_messages (world_of [poll_a]) <> [] /\
  on_reaction_add {| re_emoji := "1️⃣"; re_message := poll_a_message two_votes |}
                  some_bot (world_of [poll_a])
  = (Ok tt, world_of [poll_a]).
Proof. split; [discriminate | reflexivity]. Qed.

(** C2 (amended): with a non-empty stored list, each operation that gets
    past its own early-return guard raises at the first evaluation of the
    matching predicate and leaves the stored list and the service untouched:
    [on_reaction_add] (guard: bot user or no guild) and [on_message_delete]
    (guard: no guild or author not a bot) raise [TypeError]; [duck_stats],
    which has no guard, raises [TypeError] in a guild and [AttributeError]
    outside one.  Events stopped by a guard return without error.  With an
    empty stored list all three return without error. *)
Theorem matching_predicate_raises (env : Env) (w : World) :
  (w_messages w <> [] ->
     (forall reaction user,
        on_reaction_add reaction user w =
        if user_bot user || negb (bool_decide (is_Some (msg_guild (re_message reaction))))
        then (Ok tt, w) else (Raise TypeError, w)) /\
     (forall message,
        on_message_delete message w =
        if negb (bool_decide (is_Some (msg_guild message))) || negb (msg_author_bot message)
        then (Ok tt, w) else (Raise TypeError, w)) /\
     (forall ctx,
        duck_stats env ctx w =
        (Raise (if ctx_guild ctx is Some _ then TypeError else AttributeError), w))) /\
  (w_messages w = [] ->
     (forall reaction user, on_reaction_add reaction user w = (Ok tt, w)) /\
     (forall message, on_message_delete message w = (Ok tt, w)) /\
     (forall ctx, (duck_stats env ctx w).1 = Ok tt)).
Proof.
  split; intros Hms.
  - repeat split.
    + intros reaction user. unfold on_reaction_add.
      destruct (user_bot user); [reflexivity |].
      destruct (msg_guild (re_message reaction)) as [gid|]; [| reflexivity].
      simpl. unfold bindM, get_messages, lift.
      rewrite (py_filter_raises _ TypeError); auto using is_poll_of_raises.
    + intros message. unfold on_message_delete.
      destruct (msg_guild message) as [gid|]; [| reflexivity].
      destruct (msg_author_bot message); [| reflexivity].
      simpl. unfold bindM, get_messages.
      rewrite (unpack_single_raises _ TypeError); auto using is_poll_of_raises.
    + intros ctx. unfold duck_stats, bindM, get_messages, lift.
      rewrite (py_filter_raises _ _ _ (is_channel_poll_raises ctx) Hms).
      reflexivity.
  - repeat split.
    + intros reaction user. unfold on_reaction_add.
      destruct (user_bot user); [reflexivity |].
      destruct (msg_guild (re_message reaction)) as [gid|]; [| reflexivity].
      unfold bindM, get_messages, lift. rewrite Hms. reflexivity.
    + intros message. unfold on_message_delete.
      destruct (msg_guild message) as [gid|]; [| reflexivity].
      destruct (msg_author_bot message); [| reflexivity].
      unfold bindM, get_messages. rewrite Hms. reflexivity.
    + intros ctx. unfold duck_stats, bindM, get_messages, lift.
      rewrite Hms. reflexivity.
Qed.

Lemma matching_predicate_raises_witness :
  on_reaction_add {| re_emoji := "1️⃣"; re_message := poll_a_message two_votes |}
                  alice (world_of [poll_a])
  = (Raise TypeError, world_of [poll_a]) /\
  on_message_delete (poll_a_message two_votes) (world_of []) = (Ok tt, world_of []).
Proof.
  split.
  - apply (proj1 (matching_predicate_raises (env_gone 0) (world_of [poll_a]))).
    discriminate.
  - apply (proj2 (matching_predicate_raises (env_gone 0) (world_of []))).
    reflexivity.
Defined.

(** ** Poll creation *)

(** C1: the [duck] command posts the poll and its nine reactions and
    returns, but it never writes to the stored list: after the command the
    list is the one from before, so no entry for the new message exists. *)
Theorem duck_records_nothing (ctx : Context) (w : World) :
  (duck ctx w).1 = Ok tt /\
  w_messages (duck ctx w).2 = w_messages w /\
  w_log (duck ctx w).2 =
  (if ctx_invoked_subcommand ctx then w_log w
   else w_log w ++ HttpGet DUCK_IMAGE_URL
          :: SendFile (ctx_channel ctx) "On a rubber duck scale, how's your day going?" "duck.jpg"
          :: map (AddReaction (w_next_id w)) EMOJIS).
Proof.
  unfold duck. destruct (ctx_invoked_subcommand ctx).
  - repeat split.
  - repeat split. cbn. rewrite <- !app_assoc. reflexivity.
Qed.

(** ** Reactions *)

(** C3: a user who already holds [1️⃣] on a tracked poll adds [2️⃣].  The
    handler raises [TypeError] at the matching predicate; no reaction is
    removed, both stay on the message. *)
Theorem on_reaction_add_second_vote_raises :
  reactions_of (user_id alice) (poll_a_message two_votes) = 2%nat /\
  on_reaction_add {| re_emoji := "2️⃣"; re_message := poll_a_message two_votes |}
                  alice (world_of [poll_a])
  = (Raise TypeError, world_of [poll_a]).
Proof. split; reflexivity. Qed.

(** C4: a user adds a label outside the nine to a tracked poll.  The
    handler raises [TypeError] at the matching predicate; the reaction is
    not cleared (the stored list is untouched). *)
Theorem on_reaction_add_stray_label_raises :
  bool_decide ("🦆" ∈ EMOJIS) = false /\
  on_reaction_add {| re_emoji := "🦆"; re_message := poll_a_message stray_label |}
                  alice (world_of [poll_a])
  = (Raise TypeError, world_of [poll_a]).
Proof. split; reflexivity. Qed.

(** ** Deletion *)

(** C5: the message of a tracked poll is deleted.  The handler raises
    [TypeError] at the matching predicate and the entry stays in the stored
    list. *)
Theorem on_message_delete_tracked_raises :
  on_message_delete (poll_a_message []) (world_of [poll_a])
  = (Raise TypeError, world_of [poll_a]).
Proof. reflexivity. Qed.

(** ** Expiry *)

Lemma filter_scan_some {A} (pred : nat -> A -> result bool) (rest : list A) :
  forall i m i',
    filter_scan pred rest i = Ok (Some (m, i')) ->
    exists j, rest !! j = Some m /\ i' = S (i + j).
Proof.
  induction rest as [|x rest IH]; intros i m i' H; simpl in H; [discriminate |].
  destruct (pred i x) as [[|]|e]; try discriminate.
  - inversion H; subst. exists 0%nat. split; [reflexivity | lia].
  - destruct (IH _ _ _ H) as (j & Hj & ->). exists (S j). split; [exact Hj | lia].
Qed.

Lemma filter_next_some {A} (pred : nat -> A -> result bool) (l : list A) i m i' :
  filter_next pred l i = Ok (Some (m, i')) ->
  (i < i')%nat /\ (i' <= length l)%nat /\ m ∈ l.
Proof.
  unfold filter_next. intros H.
  destruct (filter_scan_some _ _ _ _ _ H) as (j & Hj & ->).
  rewrite lookup_drop in Hj.
  pose proof (lookup_lt_Some _ _ _ Hj).
  repeat split; [lia | lia |]. eapply list_elem_of_lookup_2; eassumption.
Qed.

Lemma py_list_remove_ok {A} `{EqDecision A} (x : A) (l : list A) :
  x ∈ l -> exists l', py_list_remove x l = Ok l' /\ length l = S (length l').
Proof.
  induction l as [|y l IH]; intros Hin.
  - inversion Hin.
  - simpl. destruct (decide (y = x)) as [->|Hne].
    + eauto.
    + assert (x ∈ l) as Hin' by (inversion Hin; subst; [congruence | assumption]).
      destruct (IH Hin') as (l' & -> & Hlen). simpl. eexists; split; [reflexivity |].
      simpl. lia.
Qed.

Lemma filter_scan_is_expired_ok (env : Env) (rest : list TrackedPoll) :
  forall i, exists r, filter_scan (is_expired env) rest i = Ok r.
Proof.
  induction rest as [|x rest IH]; intros i; simpl; [eauto |].
  destruct (created_at x <? env_time env i - DAY); eauto.
Qed.

(** The comprehension always comes to an end within the fuel it is given by
    [cleanup_messages]. *)
Lemma cleanup_loop_total (env : Env) :
  forall fuel messages i log,
    (length messages - i < fuel)%nat ->
    exists r messages' log',
      cleanup_loop env fuel messages i log = Some (r, messages', log').
Proof.
  induction fuel as [|fuel IH]; intros messages i log Hfuel; [lia |].
  simpl.
  destruct (filter_scan_is_expired_ok env (drop i messages) i) as (r & Hr).
  unfold filter_next at 1. rewrite Hr.
  destruct r as [[m i']|]; [| eauto].
  destruct (env_bot_has_create_task env); [| eauto].
  apply filter_next_some in Hr as (Hlt & Hle & Hin).
  destruct (py_list_remove_ok m messages Hin) as (messages' & -> & Hlen).
  apply IH. lia.
Qed.

Lemma cleanup_messages_total (env : Env) (w : World) :
  exists r w', cleanup_messages env w = Some (r, w').
Proof.
  unfold cleanup_messages.
  destruct (cleanup_loop_total env (S (length (w_messages w))) (w_messages w) 0 [])
    as (r & ms & log & ->); [lia | eauto].
Qed.

Lemma filter_next_past_end {A} (pred : nat -> A -> result bool) (l : list A) (i : nat) :
  (length l <= i)%nat -> filter_next pred l i = Ok None.
Proof. intros Hi. unfold filter_next. rewrite drop_ge by assumption. reflexivity. Qed.

Lemma filter_next_at {A} (pred : nat -> A -> result bool) (l : list A) (i : nat) (x : A) :
  l !! i = Some x ->
  filter_next pred l i =
  match pred i x with
  | Raise e => Raise e
  | Ok true => Ok (Some (x, S i))
  | Ok false => filter_next pred l (S i)
  end.
Proof.
  intros Hx. unfold filter_next. rewrite (drop_S _ _ _ Hx). reflexivity.
Qed.

Lemma py_list_remove_middle {A} `{EqDecision A} (x : A) (done rest : list A) :
  x ∉ done -> py_list_remove x (done ++ x :: rest) = Ok (done ++ rest).
Proof.
  induction done as [|y done IH]; intros Hnot; simpl.
  - rewrite decide_True by reflexivity. reflexivity.
  - apply not_elem_of_cons in Hnot as [Hne Hnot].
    rewrite decide_False by congruence. rewrite IH by assumption. reflexivity.
Qed.

(** Were the pass run by a bot that has [create_task], then, with distinct
    entries and a clock that stands still during the pass, the
    comprehension would compute the closed form: of two expired neighbours
    only the first goes. *)
Lemma cleanup_loop_sweep (env : Env) (now : Z) :
  env_bot_has_create_task env = true ->
  (forall k, env_time env k = now) ->
  forall n rest, (length rest <= n)%nat ->
  forall done fuel log,
    NoDup (done ++ rest) ->
    (length rest < fuel)%nat ->
    cleanup_loop env fuel (done ++ rest) (length done) log =
    Some (Ok tt, done ++ sweep_kept (older_than_a_day now) rest,
          log ++ map CreateTask (sweep_removed (older_than_a_day now) rest)).
Proof.
  intros Hbot Hclock. induction n as [|n IH]; intros rest Hn done fuel log Hnodup Hfuel.
  - destruct rest; [| simpl in Hn; lia].
    destruct fuel as [|fuel]; [lia |]. simpl.
    rewrite filter_next_past_end by (rewrite length_app; simpl; lia).
    rewrite !app_nil_r. reflexivity.
  - destruct rest as [|x rest1].
    { destruct fuel as [|fuel]; [lia |]. simpl.
      rewrite filter_next_past_end by (rewrite length_app; simpl; lia).
      rewrite !app_nil_r. reflexivity. }
    simpl in Hn, Hfuel.
    destruct fuel as [|fuel]; [lia |].
    assert ((done ++ x :: rest1) !! length done = Some x) as Hx
      by (rewrite lookup_app_r, Nat.sub_diag by lia; reflexivity).
    cbn [cleanup_loop]. rewrite (filter_next_at _ _ _ _ Hx).
    unfold is_expired at 1. rewrite Hclock.
    cbn [sweep_kept sweep_removed]. fold (older_than_a_day now x).
    destruct (older_than_a_day now x) eqn:Hexp.
    + rewrite Hbot.
      apply NoDup_app in Hnodup as (Hdone & Hdisj & Hrest).
      rewrite py_list_remove_middle
        by (intros Hin; apply (Hdisj x Hin); left).
      apply NoDup_cons in Hrest as [Hx1 Hrest1].
      destruct rest1 as [|y rest2].
      * destruct fuel as [|fuel]; [lia |]. simpl.
        rewrite filter_next_past_end by (rewrite length_app; simpl; lia).
        reflexivity.
      * specialize (IH rest2 ltac:(simpl in Hn; lia) (done ++ [y]) fuel
                       (log ++ [CreateTask x])).
        rewrite length_app, Nat.add_comm in IH. simpl in IH.
        rewrite <- !app_assoc in IH. simpl in IH.
        rewrite IH; [reflexivity | | simpl in Hfuel; lia].
        apply NoDup_app. split; [assumption |]. split; [| assumption].
        intros z Hz Hz'. apply (Hdisj z Hz). right. exact Hz'.
    + specialize (IH rest1 ltac:(lia) (done ++ [x]) (S fuel) log).
      rewrite length_app, Nat.add_comm in IH. simpl in IH.
      rewrite <- !app_assoc in IH. simpl in IH.
      cbn [cleanup_loop] in IH.
      rewrite <- IH; [reflexivity | assumption | lia].
Qed.

Lemma cleanup_messages_sweep (env : Env) (now : Z) (w : World) :
  env_bot_has_create_task env = true ->
  (forall k, env_time env k = now) ->
  NoDup (w_messages w) ->
  cleanup_messages env w =
  Some (Ok tt, {| w_messages := sweep_kept (older_than_a_day now) (w_messages w);
                  w_log := w_log w
                             ++ map CreateTask (sweep_removed (older_than_a_day now) (w_messages w));
                  w_next_id := w_next_id w |}).
Proof.
  intros Hbot Hclock Hnodup. unfold cleanup_messages.
  pose proof (cleanup_loop_sweep env now Hbot Hclock (length (w_messages w)) (w_messages w)
                (le_n _) [] (S (length (w_messages w))) [] Hnodup (Nat.lt_succ_diag_r _))
    as Hloop.
  change ([] ++ w_messages w) with (w_messages w) in Hloop.
  change (length (@nil TrackedPoll)) with 0%nat in Hloop.
  rewrite Hloop. reflexivity.
Qed.

(** C6: two polls older than a day are stored, and the pass is run by the
    host's bot, which has no [create_task].  The pass raises
    [AttributeError] at [self.bot.create_task] for the first of them,
    before [messages.remove]: neither poll is removed and no stats are
    scheduled. *)
Theorem cleanup_messages_removes_nothing :
  created_at poll_a < 100000 - DAY /\
  created_at poll_b < 100000 - DAY /\
  cleanup_messages (env_gone 100000) (world_of [poll_a; poll_b])
  = Some (Raise AttributeError, world_of [poll_a; poll_b]).
Proof. repeat split. Qed.

(** ** Statistics command *)

(** The head of an ascending sort carries the least key. *)
Lemma insert_by_key_head {A} (key : A -> Z) (x : A) (l : list A) (d : A) :
  key (hd d (insert_by_key key x l)) = Z.min (key x) (key (hd x l)).
Proof.
  destruct l as [|y l]; simpl; [lia |].
  destruct (key x <=? key y) eqn:E; simpl; lia.
Qed.

Lemma insert_by_key_elem {A} (key : A -> Z) (x y : A) (l : list A) :
  y ∈ insert_by_key key x l <-> y = x \/ y ∈ l.
Proof.
  induction l as [|z l IH]; simpl.
  - rewrite list_elem_of_singleton, elem_of_nil. tauto.
  - destruct (key x <=? key z).
    + rewrite elem_of_cons. reflexivity.
    + rewrite !elem_of_cons, IH. tauto.
Qed.

Lemma py_sorted_elem {A} (key : A -> Z) (y : A) (l : list A) :
  y ∈ py_sorted key l <-> y ∈ l.
Proof.
  induction l as [|x l IH]; simpl; [reflexivity |].
  rewrite insert_by_key_elem, IH, elem_of_cons. reflexivity.
Qed.

Lemma py_sorted_head_least {A} (key : A -> Z) (l : list A) (p : A) (rest : list A) :
  py_sorted key l = p :: rest -> forall q, q ∈ l -> key p <= key q.
Proof.
  revert p rest. induction l as [|x l IH]; intros p rest Hs q Hq; [inversion Hq |].
  simpl in Hs.
  pose proof (insert_by_key_head key x (py_sorted key l) x) as Hhd.
  rewrite Hs in Hhd. simpl in Hhd.
  destruct (py_sorted key l) as [|p' rest'] eqn:Hl.
  - assert (l = []) as ->.
    { destruct l as [|z l]; [reflexivity |].
      assert (z ∈ py_sorted key (z :: l)) as Hz by (apply py_sorted_elem; left).
      rewrite Hl in Hz. inversion Hz. }
    simpl in Hhd. apply list_elem_of_singleton in Hq as ->. lia.
  - simpl in Hhd. apply elem_of_cons in Hq as [-> | Hq]; [lia |].
    specialize (IH _ _ eq_refl q Hq). lia.
Qed.

(** C7: two polls of the same channel are stored, [poll_b] the later one.
    The stats command raises [TypeError] at the matching predicate and
    shows nothing; and the selection it would make, the head of the
    ascending sort by [created_at], is the earliest poll, [poll_a]. *)
Theorem duck_stats_latest_not_selected :
  created_at poll_a < created_at poll_b /\
  duck_stats (env_gone 3000) ctx_a (world_of [poll_a; poll_b])
  = (Raise TypeError, world_of [poll_a; poll_b]) /\
  head (py_sorted created_at [poll_b; poll_a]) = Some poll_a.
Proof. repeat split. Qed.

(** ** Fetch failures *)





(** ** Tallies *)

Lemma count_reaction_other (d : gmap string Z) (r : Reaction) (e : string) :
  r_emoji r <> e -> count_reaction d r !! e = d !! e.
Proof.
  intros Hne. unfold count_reaction. case_bool_decide; [| reflexivity].
  apply lookup_insert_ne. exact Hne.
Qed.

Lemma count_reactions_absent (rs : list Reaction) (e : string) :
  forall d : gmap string Z,
    e ∉ r_emoji <$> rs -> foldl count_reaction d rs !! e = d !! e.
Proof.
  induction rs as [|r rs IH]; intros d Hnot; [reflexivity |].
  rewrite fmap_cons, not_elem_of_cons in Hnot. destruct Hnot as [Hne Hnot].
  simpl. rewrite IH by assumption. apply count_reaction_other. congruence.
Qed.

(** The last reaction carrying a recognised label decides its entry. *)
Lemma count_reactions_last (pre post : list Reaction) (r : Reaction) (d : gmap string Z) :
  r_emoji r ∈ EMOJIS ->
  r_emoji r ∉ r_emoji <$> post ->
  foldl count_reaction d (pre ++ r :: post) !! r_emoji r = Some (r_count r - 1).
Proof.
  intros Hin Hpost. rewrite foldl_app. simpl.
  rewrite count_reactions_absent by assumption.
  unfold count_reaction. rewrite bool_decide_eq_true_2 by assumption.
  apply lookup_insert_eq.
Qed.

Lemma get_stats_elem (message : Message) (e : string) (v : Z) :
  (e, v) ∈ get_stats message <->
  e ∈ EMOJIS /\ v = default 0 (foldl count_reaction ∅ (msg_reactions message) !! e).
Proof.
  unfold get_stats. rewrite list_elem_of_fmap. split.
  - intros (e' & Heq & Hin). inversion Heq; subst. auto.
  - intros (Hin & ->). eauto.
Qed.

(** C8: [get_stats] returns a mapping over exactly the nine labels, in
    their order; a label some reaction of the message carries is mapped to
    that reaction's count minus one (a message lists each label at most
    once), every other label to 0; and on the counts [{1: 3, 2: 1}] the
    result is [{1: 2, 2: 0, 3: 0, ..., 9: 0}]. *)
Theorem get_stats_spec (message : Message) :
  (get_stats message).*1 = EMOJIS /\
  (NoDup (r_emoji <$> msg_reactions message) ->
   forall r, r ∈ msg_reactions message -> r_emoji r ∈ EMOJIS ->
             (r_emoji r, r_count r - 1) ∈ get_stats message) /\
  (forall e, e ∈ EMOJIS -> e ∉ r_emoji <$> msg_reactions message ->
             (e, 0) ∈ get_stats message) /\
  get_stats (poll_a_message three_and_one) =
  [("1️⃣", 2); ("2️⃣", 0); ("3️⃣", 0); ("4️⃣", 0); ("5️⃣", 0);
   ("6️⃣", 0); ("7️⃣", 0); ("8️⃣", 0); ("9️⃣", 0)].
Proof.
  split; [| split; [| split]].
  - unfold get_stats. rewrite <- list_fmap_compose. apply list_fmap_id.
  - intros Hnodup r Hr Hlabel. apply get_stats_elem. split; [assumption |].
    apply list_elem_of_split in Hr as (pre & post & Hsplit).
    rewrite Hsplit in Hnodup |- *.
    rewrite fmap_app, fmap_cons in Hnodup.
    apply NoDup_app in Hnodup as (_ & _ & Hpost).
    apply NoDup_cons in Hpost as [Hpost _].
    rewrite count_reactions_last by assumption. reflexivity.
  - intros e He Habsent. apply get_stats_elem. split; [assumption |].
    rewrite count_reactions_absent by assumption. reflexivity.
  - vm_compute. reflexivity.
Qed.

Lemma get_stats_spec_witness :
  ("1️⃣", 2) ∈ get_stats (poll_a_message three_and_one) /\
  ("3️⃣", 0) ∈ get_stats (poll_a_message three_and_one).
Proof.
  destruct (get_stats_spec (poll_a_message three_and_one)) as (_ & Hpresent & Habsent & _).
  split.
  - apply (Hpresent ltac:(apply (bool_decide_unpack _); vm_compute; exact I)
                    {| r_emoji := "1️⃣"; r_count := 3; r_users := [9; 7; 6] |}).
    + left.
    + left.
  - apply Habsent; [do 2 right; left |].
    apply (bool_decide_unpack _). vm_compute. exact I.
Defined.

(** ** Rendering *)

Lemma sum_of_zero_votes (stats : list (string * Z)) :
  (forall item, item ∈ stats -> item.2 = 0) -> foldr Z.add 0 (map snd stats) = 0.
Proof.
  induction stats as [|item stats IH]; intros Hall; [reflexivity |].
  simpl. rewrite (Hall item) by left. rewrite IH; [reflexivity |].
  intros item' Hin. apply Hall. right. exact Hin.
Qed.

(** With no votes in total the first field already fails. *)
Lemma make_field_zero_sum (env : Env) (stats : list (string * Z)) :
  stats <> [] -> map_result (make_field env 0) stats = Raise ZeroDivisionError.
Proof. destruct stats as [|item stats]; [congruence | reflexivity]. Qed.

(** C10: on a stats mapping whose counts are all 0 (a mapping over the
    nine labels, hence not empty) [make_stats_embed], called with the stored
    dict as [duck_stats] does, raises [ZeroDivisionError] instead of
    returning an embed. *)
Theorem make_stats_embed_no_votes (env : Env) (stats : list (string * Z))
        (p : TrackedPoll) :
  stats <> [] ->
  (forall item, item ∈ stats -> item.2 = 0) ->
  make_stats_embed env stats (DataPoll p) = Raise ZeroDivisionError.
Proof.
  intros Hne Hall. unfold make_stats_embed.
  rewrite (sum_of_zero_votes stats Hall). simpl.
  rewrite (make_field_zero_sum env stats Hne). reflexivity.
Qed.

Lemma make_stats_embed_no_votes_witness :
  make_stats_embed (env_gone 0) (get_stats (poll_a_message [])) (DataPoll poll_a)
  = Raise ZeroDivisionError.
Proof.
  apply make_stats_embed_no_votes.
  - discriminate.
  - intros [e v] Hin. apply get_stats_elem in Hin as [_ ->]. reflexivity.
Defined.

(** ** What the handlers leave behind *)

Lemma on_reaction_add_outcome (reaction : ReactionEvent) (user : User) (w : World) :
  on_reaction_add reaction user w =
  (match user_bot user, msg_guild (re_message reaction), w_messages w with
   | false, Some _, _ :: _ => Raise TypeError
   | _, _, _ => Ok tt
   end, w).
Proof.
  unfold on_reaction_add.
  destruct (user_bot user); [reflexivity |].
  destruct (msg_guild (re_message reaction)) as [gid|]; [| reflexivity].
  unfold bindM, get_messages, lift.
  destruct (w_messages w) as [|m ms] eqn:Hms; [reflexivity |].
  rewrite (py_filter_raises _ TypeError) by (auto using is_poll_of_raises).
  reflexivity.
Qed.

Lemma on_message_delete_outcome (message : Message) (w : World) :
  on_message_delete message w =
  (match msg_guild message, msg_author_bot message, w_messages w with
   | Some _, true, _ :: _ => Raise TypeError
   | _, _, _ => Ok tt
   end, w).
Proof.
  unfold on_message_delete.
  destruct (msg_guild message) as [gid|]; [| reflexivity].
  destruct (msg_author_bot message); [| reflexivity].
  unfold bindM, get_messages.
  destruct (w_messages w) as [|m ms] eqn:Hms; [reflexivity |].
  rewrite (unpack_single_raises _ TypeError) by (auto using is_poll_of_raises).
  reflexivity.
Qed.

Lemma duck_stats_outcome (env : Env) (ctx : Context) (w : World) :
  duck_stats env ctx w =
  match w_messages w with
  | [] => (Ok tt, {| w_messages := w_messages w;
                     w_log := w_log w ++ [SendText (ctx_channel ctx) NO_POLL_TEXT];
                     w_next_id := w_next_id w |})
  | _ :: _ => (Raise (if ctx_guild ctx is Some _ then TypeError else AttributeError), w)
  end.
Proof.
  unfold duck_stats, bindM, get_messages, lift.
  destruct (w_messages w) as [|m ms] eqn:Hms.
  - simpl. unfold emit. rewrite Hms. reflexivity.
  - rewrite (py_filter_raises _ _ _ (is_channel_poll_raises ctx)) by discriminate.
    reflexivity.
Qed.

Lemma send_stats_outcome (env : Env) (m : TrackedPoll) (return_error : bool) (w : World) :
  send_stats env m return_error w =
  if negb (env_has_guild env (guild_id m)
           && env_has_channel env (guild_id m) (channel_id m))
  then (Ok tt, w)
  else match env_fetch_message env (channel_id m) (message_id m) with
       | Ok _ => (Raise TypeError, w)
       | Raise e =>
           if is_fetch_failure e then
             if return_error then emit (SendText (channel_id m) NO_POLL_TEXT) w
             else (Ok tt, w)
           else (Raise e, w)
       end.
Proof.
  unfold send_stats.
  destruct (env_has_guild env (guild_id m)); [| reflexivity].
  destruct (env_has_channel env (guild_id m) (channel_id m)); [| reflexivity].
  simpl.
  destruct (env_fetch_message env (channel_id m) (message_id m)) as [fetched|e];
    [reflexivity |].
  destruct (is_fetch_failure e), return_error; reflexivity.
Qed.

(** X1: [on_reaction_add] has no effect at all, whatever the reaction, the
    user and the stored list: it makes no call to the service (no reaction
    is ever cleared or removed) and leaves the stored list as it is. *)
Theorem on_reaction_add_never_acts (reaction : ReactionEvent) (user : User) (w : World) :
  (on_reaction_add reaction user w).2 = w.
Proof. rewrite on_reaction_add_outcome. reflexivity. Qed.

(** X2: [on_message_delete] never changes the stored list and makes no
    call to the service, whatever message is deleted. *)
Theorem on_message_delete_never_removes (message : Message) (w : World) :
  (on_message_delete message w).2 = w.
Proof. rewrite on_message_delete_outcome. reflexivity. Qed.

(** X3: the outcome of [duck_stats] does not depend on the service (no
    message is ever fetched); the stored list is unchanged, and the only
    thing the command can send is the fixed text, to the invoking channel. *)
Theorem duck_stats_never_fetches (env env' : Env) (ctx : Context) (w : World) :
  duck_stats env ctx w = duck_stats env' ctx w /\
  w_messages (duck_stats env ctx w).2 = w_messages w /\
  (w_log (duck_stats env ctx w).2 = w_log w \/
   w_log (duck_stats env ctx w).2 = w_log w ++ [SendText (ctx_channel ctx) NO_POLL_TEXT]).
Proof.
  rewrite !duck_stats_outcome.
  destruct (w_messages w) eqn:Hms; simpl; rewrite ?Hms; auto.
Qed.

(** X4: [send_stats] as the expiry task calls it ([return_error] left at
    [False]) never sends anything and never touches the stored list,
    whether the guild, the channel or the message exist or not. *)
Theorem send_stats_background_silent (env : Env) (m : TrackedPoll) (w : World) :
  (send_stats env m false w).2 = w.
Proof.
  rewrite send_stats_outcome.
  destruct (negb _); [reflexivity |].
  destruct (env_fetch_message env (channel_id m) (message_id m)) as [fetched|e];
    [reflexivity |].
  destruct (is_fetch_failure e); reflexivity.
Qed.

(** X5: when guild and channel are found and the fetch succeeds,
    [send_stats] raises [TypeError] and sends nothing: it hands the fetched
    message to [make_stats_embed], which subscripts it like the stored
    dict. *)
Theorem send_stats_fetched_raises (env : Env) (m : TrackedPoll) (return_error : bool)
        (fetched : Message) (w : World) :
  env_has_guild env (guild_id m) = true ->
  env_has_channel env (guild_id m) (channel_id m) = true ->
  env_fetch_message env (channel_id m) (message_id m) = Ok fetched ->
  send_stats env m return_error w = (Raise TypeError, w).
Proof.
  intros Hg Hc Hf. rewrite send_stats_outcome, Hg, Hc, Hf. reflexivity.
Qed.

Lemma send_stats_fetched_raises_witness :
  send_stats (env_live 100000 three_and_one) poll_a true (world_of [poll_a])
  = (Raise TypeError, world_of [poll_a]).
Proof.
  apply (send_stats_fetched_raises (env_live 100000 three_and_one) poll_a true
           (poll_a_message three_and_one)); reflexivity.
Defined.

(** ** What an expiry pass keeps and removes *)

Lemma filter_scan_accepts {A} (pred : nat -> A -> result bool) (rest : list A) :
  forall i m i',
    filter_scan pred rest i = Ok (Some (m, i')) ->
    exists j, rest !! j = Some m /\ pred (i + j)%nat m = Ok true.
Proof.
  induction rest as [|x rest IH]; intros i m i' H; simpl in H; [discriminate |].
  destruct (pred i x) as [[|]|e] eqn:Hp; try discriminate.
  - inversion H; subst. exists 0%nat. rewrite Nat.add_0_r. auto.
  - destruct (IH _ _ _ H) as (j & Hj & Hpj). exists (S j).
    rewrite Nat.add_succ_r. auto.
Qed.

Lemma filter_scan_exhausted {A} (pred : nat -> A -> result bool) (rest : list A) :
  forall i,
    filter_scan pred rest i = Ok None ->
    forall j x, rest !! j = Some x -> pred (i + j)%nat x = Ok false.
Proof.
  induction rest as [|y rest IH]; intros i H j x Hx; [discriminate |].
  simpl in H. destruct (pred i y) as [[|]|e] eqn:Hp; try discriminate.
  destruct j as [|j]; simpl in Hx.
  - inversion Hx; subst. rewrite Nat.add_0_r. exact Hp.
  - rewrite Nat.add_succ_r. apply (IH (S i) H j x Hx).
Qed.

Lemma py_list_remove_perm {A} `{EqDecision A} (x : A) (l : list A) :
  forall l', py_list_remove x l = Ok l' -> l ≡ₚ x :: l' /\ sublist l' l.
Proof.
  induction l as [|y l IH]; intros l' H; simpl in H; [discriminate |].
  destruct (decide (y = x)) as [->|Hne].
  - inversion H; subst. split; [reflexivity | apply sublist_cons, reflexivity].
  - destruct (py_list_remove x l) as [r|e]; simpl in H; [| discriminate].
    inversion H; subst. destruct (IH r eq_refl) as [Hperm Hsub]. split.
    + rewrite Hperm. apply Permutation_swap.
    + apply sublist_skip. exact Hsub.
Qed.

(** Whatever the bot and whether the pass raises or returns: it splits the
    list into what it keeps, in order, and what it removes; what it removes
    was older than a day at some reading of the clock and has its task
    created. *)
Lemma cleanup_loop_spec (env : Env) :
  forall fuel messages i log,
    (length messages - i < fuel)%nat ->
    exists r kept removed,
      cleanup_loop env fuel messages i log
      = Some (r, kept, log ++ map CreateTask removed) /\
      removed ++ kept ≡ₚ messages /\
      sublist kept messages /\
      Forall (fun m => exists k, created_at m < env_time env k - DAY) removed.
Proof.
  induction fuel as [|fuel IH]; intros messages i log Hfuel; [lia |].
  simpl.
  destruct (filter_scan_is_expired_ok env (drop i messages) i) as (r & Hr).
  unfold filter_next at 1. rewrite Hr.
  destruct r as [[m i']|].
  - destruct (env_bot_has_create_task env).
    + destruct (filter_scan_accepts _ _ _ _ _ Hr) as (j & _ & Hdue).
      apply filter_next_some in Hr as (Hlt & Hle & Hin).
      destruct (py_list_remove_ok m messages Hin) as (messages' & Hrm & Hlen).
      rewrite Hrm. apply py_list_remove_perm in Hrm as [Hperm Hsub].
      destruct (IH messages' i' (log ++ [CreateTask m]))
        as (r & kept & removed & -> & Hp & Hs & Hall); [lia |].
      exists r, kept, (m :: removed). repeat split.
      * rewrite <- app_assoc. reflexivity.
      * rewrite Hperm. simpl. rewrite Hp. reflexivity.
      * etransitivity; eassumption.
      * constructor; [| assumption].
        exists (i + j)%nat. unfold is_expired in Hdue. inversion Hdue as [Hlt'].
        apply Z.ltb_lt. exact Hlt'.
    + exists (Raise AttributeError), messages, []. rewrite app_nil_r.
      repeat split; auto.
  - exists (Ok tt), messages, []. rewrite app_nil_r. repeat split; auto.
Qed.

(** X6: run by a bot without [create_task], as the host's is, a pass of
    [cleanup_messages] never changes the stored list and creates no task.
    It raises [AttributeError] as soon as the filter yields a poll, that is
    when some stored poll is older than a day at the reading of the clock
    taken for it, and returns normally when none is. *)
Theorem cleanup_messages_without_create_task (env : Env) (w : World) :
  env_bot_has_create_task env = false ->
  ((exists j m, w_messages w !! j = Some m /\ created_at m < env_time env j - DAY) ->
   cleanup_messages env w = Some (Raise AttributeError, w)) /\
  ((forall j m, w_messages w !! j = Some m -> env_time env j - DAY <= created_at m) ->
   cleanup_messages env w = Some (Ok tt, w)).
Proof.
  intros Hbot. unfold cleanup_messages. cbn [cleanup_loop]. rewrite Hbot.
  destruct (filter_scan_is_expired_ok env (w_messages w) 0) as (r & Hr).
  unfold filter_next. rewrite drop_0, Hr.
  destruct w as [ms log next]. cbn [w_messages w_log w_next_id] in *.
  split.
  - intros (j & m & Hj & Hdue). destruct r as [[x i']|].
    + rewrite app_nil_r. reflexivity.
    + exfalso. pose proof (filter_scan_exhausted _ _ _ Hr j m Hj) as Hfalse.
      unfold is_expired in Hfalse. inversion Hfalse as [Hlt].
      apply Z.ltb_ge in Hlt. simpl in Hlt. lia.
  - intros Hfresh. destruct r as [[x i']|].
    + exfalso. destruct (filter_scan_accepts _ _ _ _ _ Hr) as (j & Hj & Hdue).
      unfold is_expired in Hdue. inversion Hdue as [Hlt].
      apply Z.ltb_lt in Hlt. simpl in Hlt. specialize (Hfresh j x Hj). lia.
    + rewrite app_nil_r. reflexivity.
Qed.

Lemma cleanup_messages_without_create_task_witness :
  cleanup_messages (env_gone 100000) (world_of [poll_c; poll_b])
  = Some (Raise AttributeError, world_of [poll_c; poll_b]) /\
  cleanup_messages (env_gone 100000) (world_of [poll_c])
  = Some (Ok tt, world_of [poll_c]).
Proof.
  split.
  - apply (cleanup_messages_without_create_task (env_gone 100000)
             (world_of [poll_c; poll_b]) eq_refl).
    exists 1%nat, poll_b. split; reflexivity.
  - apply (cleanup_messages_without_create_task (env_gone 100000)
             (world_of [poll_c]) eq_refl).
    intros j m Hj. destruct j as [|j]; [| discriminate].
    inversion Hj; subst. vm_compute. discriminate.
Defined.

(** X7: whatever the bot, and whether the pass returns or raises, a stored
    poll that is not older than a day at any reading of the clock is still
    stored after the pass. *)
Theorem cleanup_messages_keeps_fresh (env : Env) (w : World) (m : TrackedPoll) :
  m ∈ w_messages w ->
  (forall k, env_time env k - DAY <= created_at m) ->
  exists r w', cleanup_messages env w = Some (r, w') /\ m ∈ w_messages w'.
Proof.
  intros Hin Hfresh. unfold cleanup_messages.
  destruct (cleanup_loop_spec env (S (length (w_messages w))) (w_messages w) 0 [])
    as (r & kept & removed & -> & Hp & Hs & Hall); [lia |].
  do 2 eexists; split; [reflexivity |]. simpl.
  rewrite <- Hp in Hin. apply elem_of_app in Hin as [Hrem | Hkept]; [| exact Hkept].
  exfalso. rewrite Forall_forall in Hall.
  destruct (Hall m Hrem) as (k & Hk). specialize (Hfresh k). lia.
Qed.

Lemma cleanup_messages_keeps_fresh_witness :
  exists r w', cleanup_messages (env_gone 100000) (world_of [poll_a; poll_c]) = Some (r, w')
               /\ poll_c ∈ w_messages w'.
Proof.
  apply cleanup_messages_keeps_fresh.
  - right. left.
  - intros k. vm_compute. discriminate.
Defined.

(** ** The cog under a stream of events *)

Lemma dispatch_tick_spec (env : Env) (w : World) :
  exists kept removed,
    dispatch env CleanupTick w
    = {| w_messages := kept;
         w_log := w_log w ++ map CreateTask removed;
         w_next_id := w_next_id w |} /\
    removed ++ kept ≡ₚ w_messages w /\
    sublist kept (w_messages w).
Proof.
  destruct (cleanup_loop_spec env (S (length (w_messages w))) (w_messages w) 0 [])
    as (r & kept & removed & Hloop & Hp & Hs & _); [lia |].
  exists kept, removed. unfold dispatch, cleanup_messages. rewrite Hloop.
  repeat split; auto.
Qed.

Lemma duck_effect (ctx : Context) (w : World) :
  w_messages (duck ctx w).2 = w_messages w /\
  exists new, w_log (duck ctx w).2 = w_log w ++ new /\
              Forall (fun a => removes_or_posts a = false /\ schedules a = false) new.
Proof.
  unfold duck. destruct (ctx_invoked_subcommand ctx).
  - split; [reflexivity |]. exists []. rewrite app_nil_r. split; [reflexivity | constructor].
  - split; [reflexivity |].
    exists (HttpGet DUCK_IMAGE_URL
              :: SendFile (ctx_channel ctx) "On a rubber duck scale, how's your day going?" "duck.jpg"
              :: map (AddReaction (w_next_id w)) EMOJIS).
    split; [cbn; rewrite <- !app_assoc; reflexivity |].
    repeat constructor.
Qed.

(** One callback: what it can add to the log and do to the stored list. *)
Lemma dispatch_effect (env : Env) (ev : event) (w : World) :
  sublist (w_messages (dispatch env ev w)) (w_messages w) /\
  exists new,
    w_log (dispatch env ev w) = w_log w ++ new /\
    Forall (fun a => removes_or_posts a = false) new /\
    (w_messages w = [] -> Forall (fun a => schedules a = false) new).
Proof.
  destruct ev as [reaction user | message | | ctx | ctx | m]; unfold dispatch.
  - rewrite on_reaction_add_outcome. simpl. split; [reflexivity |].
    exists []. rewrite app_nil_r. repeat split; constructor.
  - rewrite on_message_delete_outcome. simpl. split; [reflexivity |].
    exists []. rewrite app_nil_r. repeat split; constructor.
  - destruct (dispatch_tick_spec env w) as (kept & removed & Hd & Hp & Hs).
    unfold dispatch in Hd. rewrite Hd. simpl. split; [exact Hs |].
    exists (map CreateTask removed). repeat split.
    + apply Forall_fmap, Forall_true. reflexivity.
    + intros Hempty. rewrite Hempty in Hp. apply Permutation_nil_r in Hp.
      apply app_eq_nil in Hp as [-> _]. constructor.
  - destruct (duck_effect ctx w) as (Hms & new & Hlog & Hall).
    rewrite Hms. split; [reflexivity |]. exists new. split; [exact Hlog |].
    split; [| intros _]; eapply Forall_impl; try exact Hall; simpl; tauto.
  - rewrite duck_stats_outcome. destruct (w_messages w) eqn:Hms; simpl.
    + split; [reflexivity |]. eexists. split; [reflexivity |].
      repeat constructor.
    + rewrite ?Hms. split; [reflexivity |]. exists []. rewrite app_nil_r.
      repeat split; [constructor | discriminate].
  - replace ((send_stats env m false w).2) with w.
    + split; [reflexivity |]. exists []. rewrite app_nil_r. repeat split; constructor.
    + rewrite send_stats_outcome. destruct (negb _); [reflexivity |].
      destruct (env_fetch_message env (channel_id m) (message_id m)) as [fetched|e];
        [reflexivity |].
      destruct (is_fetch_failure e); reflexivity.
Qed.

Lemma serve_effect (evs : list (Env * event)) :
  forall w,
    sublist (w_messages (serve evs w)) (w_messages w) /\
    exists new,
      w_log (serve evs w) = w_log w ++ new /\
      Forall (fun a => removes_or_posts a = false) new /\
      (w_messages w = [] -> Forall (fun a => schedules a = false) new).
Proof.
  induction evs as [|[env ev] evs IH]; intros w; cbn [serve].
  - split; [reflexivity |]. exists []. rewrite app_nil_r. repeat split; constructor.
  - destruct (dispatch_effect env ev w) as (Hs1 & new1 & Hlog1 & Hall1 & Hsched1).
    destruct (IH (dispatch env ev w)) as (Hs2 & new2 & Hlog2 & Hall2 & Hsched2).
    split; [etransitivity; eassumption |].
    exists (new1 ++ new2). rewrite Hlog2, Hlog1, <- app_assoc.
    split; [reflexivity |]. split; [apply Forall_app; auto |].
    intros Hempty. apply Forall_app. split; [auto |].
    apply Hsched2. rewrite Hempty in Hs1. apply sublist_nil_r in Hs1. exact Hs1.
Qed.

(** X12: whatever events the host delivers, in whatever order and against
    whatever service, and whatever the stored list holds, the cog never
    clears or removes a reaction and never posts a tally embed. *)
Theorem cog_never_removes_or_posts (evs : list (Env * event)) (w : World) :
  exists new,
    w_log (serve evs w) = w_log w ++ new /\
    Forall (fun a => removes_or_posts a = false) new.
Proof.
  destruct (serve_effect evs w) as (_ & new & Hlog & Hall & _). eauto.
Qed.

(** X13: no callback of the cog ever adds to the stored list: after any
    sequence of events the stored list is a sublist of what it was. *)
Theorem stored_list_never_grows (evs : list (Env * event)) (w : World) :
  sublist (w_messages (serve evs w)) (w_messages w).
Proof. apply serve_effect. Qed.

(** X14: starting from the default settings (an empty stored list), the
    stored list stays empty through every sequence of events, and no stats
    task is ever created. *)
Theorem default_settings_stay_empty (evs : list (Env * event)) (w : World) :
  w_messages w = [] ->
  w_messages (serve evs w) = [] /\
  exists new, w_log (serve evs w) = w_log w ++ new /\
              Forall (fun a => schedules a = false) new.
Proof.
  intros Hempty.
  destruct (serve_effect evs w) as (Hs & new & Hlog & _ & Hsched).
  split.
  - rewrite Hempty in Hs. apply sublist_nil_r in Hs. exact Hs.
  - exists new. auto.
Qed.

Lemma default_settings_stay_empty_witness :
  w_messages (serve [(env_gone 100000, DuckCommand ctx_a);
                     (env_gone 100000,
                      ReactionAdded {| re_emoji := "1️⃣"; re_message := poll_a_message two_votes |}
                                    alice);
                     (env_gone 200000, CleanupTick);
                     (env_gone 200000, DuckStatsCommand ctx_a)]
                    (world_of [])) = [].
Proof.
  apply (default_settings_stay_empty _ (world_of [])). reflexivity.
Defined.

(** ** More on tallies *)

Lemma count_reactions_recognised (rs : list Reaction) :
  forall d : gmap string Z,
    foldl count_reaction d (recognised rs) = foldl count_reaction d rs.
Proof.
  induction rs as [|r rs IH]; intros d; [reflexivity |].
  unfold recognised in *. simpl.
  destruct (bool_decide (r_emoji r ∈ EMOJIS)) eqn:Hr; simpl.
  - apply IH.
  - rewrite IH. f_equal. unfold count_reaction. rewrite Hr. reflexivity.
Qed.

(** Where an entry of the intermediate dict comes from. *)
Lemma count_reactions_lookup (rs : list Reaction) (e : string) (v : Z) :
  forall d : gmap string Z,
    foldl count_reaction d rs !! e = Some v ->
    d !! e = Some v \/
    exists r, r ∈ rs /\ r_emoji r = e /\ e ∈ EMOJIS /\ v = r_count r - 1.
Proof.
  induction rs as [|r rs IH]; intros d H; [left; exact H |].
  simpl in H. destruct (IH _ H) as [Hd | (r' & Hin & Hlabel & Hrec & Hv)].
  - unfold count_reaction in Hd. case_bool_decide as Hr; [| left; exact Hd].
    destruct (decide (r_emoji r = e)) as [Heq | Hne].
    + subst e. rewrite lookup_insert_eq in Hd. inversion Hd.
      right. exists r. repeat split; [left | assumption].
    + rewrite lookup_insert_ne in Hd by assumption. left. exact Hd.
  - right. exists r'. repeat split; [right | | |]; assumption.
Qed.

(** X15: reactions under labels outside the nine have no influence on the
    tally: dropping them from the message gives the same [get_stats]. *)
Theorem get_stats_ignores_unrecognised (message : Message) :
  get_stats (with_reactions message (recognised (msg_reactions message)))
  = get_stats message.
Proof.
  unfold get_stats. simpl. rewrite count_reactions_recognised. reflexivity.
Qed.

(** X16: when every reaction of the message has a count of at least one
    (the bot's own), no entry of the tally is negative. *)
Theorem get_stats_nonnegative (message : Message) :
  (forall r, r ∈ msg_reactions message -> 1 <= r_count r) ->
  forall e v, (e, v) ∈ get_stats message -> 0 <= v.
Proof.
  intros Hcounts e v Hin. apply get_stats_elem in Hin as [_ ->].
  destruct (foldl count_reaction ∅ (msg_reactions message) !! e) as [v|] eqn:Hv;
    simpl; [| lia].
  apply count_reactions_lookup in Hv as [Hempty | (r & Hr & _ & _ & ->)].
  - rewrite lookup_empty in Hempty. discriminate.
  - specialize (Hcounts r Hr). lia.
Qed.

Lemma get_stats_nonnegative_witness :
  Forall (fun item => 0 <= item.2) (get_stats (poll_a_message three_and_one)).
Proof.
  apply Forall_forall. intros [e v] Hin.
  apply (get_stats_nonnegative (poll_a_message three_and_one)) with (e := e);
    [| exact Hin].
  intros r Hr. apply elem_of_cons in Hr as [-> | Hr]; [simpl; lia |].
  apply list_elem_of_singleton in Hr as ->. simpl. lia.
Defined.

Lemma count_reactions_lookup_iff (rs : list Reaction) (e : string) (v : Z) :
  NoDup (r_emoji <$> rs) ->
  foldl count_reaction ∅ rs !! e = Some v <->
  e ∈ EMOJIS /\ exists r, r ∈ rs /\ r_emoji r = e /\ v = r_count r - 1.
Proof.
  intros Hnodup. split.
  - intros H. apply count_reactions_lookup in H as [Hempty | (r & Hr & Hl & Hrec & Hv)].
    + rewrite lookup_empty in Hempty. discriminate.
    + eauto.
  - intros (Hrec & r & Hr & <- & ->).
    apply list_elem_of_split in Hr as (pre & post & ->).
    rewrite fmap_app, fmap_cons in Hnodup.
    apply NoDup_app in Hnodup as (_ & _ & Hpost).
    apply NoDup_cons in Hpost as [Hpost _].
    apply count_reactions_last; assumption.
Qed.

(** X17: with each label listed once, the tally does not depend on the
    order in which the message lists its reactions. *)
Theorem get_stats_order_independent (message : Message) (rs rs' : list Reaction) :
  NoDup (r_emoji <$> rs) ->
  rs ≡ₚ rs' ->
  get_stats (with_reactions message rs) = get_stats (with_reactions message rs').
Proof.
  intros Hnodup Hperm.
  assert (NoDup (r_emoji <$> rs')) as Hnodup' by (rewrite <- Hperm; exact Hnodup).
  assert (foldl count_reaction ∅ rs = foldl count_reaction ∅ rs') as Hdict.
  { apply map_eq. intros e. apply option_eq. intros v.
    rewrite !count_reactions_lookup_iff by assumption.
    split; intros (Hrec & r & Hr & Hl & Hv); (split; [exact Hrec |]); exists r;
      repeat split; try assumption.
    - rewrite <- Hperm. exact Hr.
    - rewrite Hperm. exact Hr. }
  unfold get_stats. cbn [with_reactions msg_reactions]. rewrite Hdict. reflexivity.
Qed.

Lemma get_stats_order_independent_witness :
  get_stats (with_reactions (poll_a_message []) three_and_one)
  = get_stats (with_reactions (poll_a_message []) (reverse three_and_one)).
Proof.
  apply get_stats_order_independent.
  - apply (bool_decide_unpack _). vm_compute. exact I.
  - apply Permutation_swap.
Defined.

Lemma tally_sum_insert (ks : list string) (e : string) (v : Z) (d : gmap string Z) :
  NoDup ks -> e ∈ ks -> d !! e = None ->
  foldr Z.add 0 (map (fun k => default 0 (<[e:=v]> d !! k)) ks)
  = v + foldr Z.add 0 (map (fun k => default 0 (d !! k)) ks).
Proof.
  intros Hnodup Hin Hnone. induction ks as [|k ks IH]; [inversion Hin |].
  apply NoDup_cons in Hnodup as [Hk Hnodup]. simpl.
  destruct (decide (e = k)) as [-> | Hne].
  - rewrite lookup_insert_eq, Hnone. simpl.
    assert (map (fun k0 => default 0 (<[k:=v]> d !! k0)) ks
            = map (fun k0 => default 0 (d !! k0)) ks) as ->; [| lia].
    apply map_ext_in. intros k0 Hk0. rewrite lookup_insert_ne; [reflexivity |].
    intros ->. apply Hk. apply list_elem_of_In. exact Hk0.
  - rewrite lookup_insert_ne by assumption.
    apply elem_of_cons in Hin as [-> | Hin]; [congruence |].
    rewrite (IH Hnodup Hin). lia.
Qed.

Lemma EMOJIS_distinct : NoDup EMOJIS.
Proof. apply (bool_decide_unpack (NoDup EMOJIS)). vm_compute. exact I. Qed.

Lemma tally_sum_fold (rs : list Reaction) :
  NoDup (r_emoji <$> rs) ->
  forall d : gmap string Z,
    (forall r, r ∈ rs -> d !! r_emoji r = None) ->
    foldr Z.add 0 (map (fun k => default 0 (foldl count_reaction d rs !! k)) EMOJIS)
    = foldr Z.add 0 (map (fun k => default 0 (d !! k)) EMOJIS)
      + foldr Z.add 0 (map (fun r => r_count r - 1) (recognised rs)).
Proof.
  induction rs as [|r rs IH]; intros Hnodup d Hfresh; [simpl; lia |].
  rewrite fmap_cons in Hnodup. apply NoDup_cons in Hnodup as [Hr Hnodup].
  cbn [foldl]. unfold recognised. cbn [List.filter]. fold (recognised rs).
  unfold count_reaction at 2.
  destruct (bool_decide (r_emoji r ∈ EMOJIS)) eqn:Hrec.
  - rewrite IH; [| assumption |].
    + rewrite (tally_sum_insert EMOJIS (r_emoji r) (r_count r - 1) d EMOJIS_distinct).
      * cbn [map foldr]. lia.
      * apply bool_decide_eq_true in Hrec. exact Hrec.
      * apply Hfresh. left.
    + intros r' Hr'. rewrite lookup_insert_ne; [apply Hfresh; right; exact Hr' |].
      intros Heq. apply Hr. rewrite Heq. apply list_elem_of_fmap. eauto.
  - apply IH; [assumption |]. intros r' Hr'. apply Hfresh. right. exact Hr'.
Qed.

(** X18: with each label listed once, the entries of the tally add up to
    the recognised reactions' counts, each less one: the divisor of
    [make_stats_embed] is the number of votes cast besides the bot's. *)
Theorem get_stats_total (message : Message) :
  NoDup (r_emoji <$> msg_reactions message) ->
  foldr Z.add 0 (map snd (get_stats message))
  = foldr Z.add 0 (map (fun r => r_count r - 1) (recognised (msg_reactions message))).
Proof.
  intros Hnodup. unfold get_stats. rewrite map_map. cbn [snd].
  rewrite (tally_sum_fold _ Hnodup ∅) by (intros; apply lookup_empty).
  assert (foldr Z.add 0 (map (fun k : string => default 0 ((∅ : gmap string Z) !! k)) EMOJIS) = 0)
    as -> by reflexivity.
  lia.
Qed.

Lemma get_stats_total_witness :
  foldr Z.add 0 (map snd (get_stats (poll_a_message (drop 1 stray_label ++ three_and_one))))
  = 2.
Proof.
  rewrite (get_stats_total (poll_a_message (drop 1 stray_label ++ three_and_one))).
  - reflexivity.
  - apply (bool_decide_unpack _). vm_compute. exact I.
Defined.

(** ** More on rendering *)

Lemma get_stats_not_empty (message : Message) : get_stats message <> [].
Proof. unfold get_stats. simpl. discriminate. Qed.

(** X19: tally and rendering composed: for a message on which every
    recognised reaction has count one (nobody but the bot has voted; this
    includes a message without reactions) rendering its tally with the
    stored dict raises [ZeroDivisionError]. *)
Theorem unvoted_poll_cannot_be_rendered (env : Env) (message : Message)
        (p : TrackedPoll) :
  (forall r, r ∈ msg_reactions message -> r_emoji r ∈ EMOJIS -> r_count r = 1) ->
  make_stats_embed env (get_stats message) (DataPoll p) = Raise ZeroDivisionError.
Proof.
  intros Hones.
  assert (forall item, item ∈ get_stats message -> item.2 = 0) as Hzero.
  { intros [e v] Hin. apply get_stats_elem in Hin as [He ->]. simpl.
    destruct (foldl count_reaction ∅ (msg_reactions message) !! e) as [v|] eqn:Hv;
      [| reflexivity].
    apply count_reactions_lookup in Hv as [Hempty | (r & Hr & <- & Hrec & ->)].
    - rewrite lookup_empty in Hempty. discriminate.
    - simpl. rewrite (Hones r Hr Hrec). reflexivity. }
  unfold make_stats_embed. rewrite (sum_of_zero_votes _ Hzero).
  cbn [jump_link rbind].
  rewrite (make_field_zero_sum env _ (get_stats_not_empty message)). reflexivity.
Qed.

Lemma unvoted_poll_cannot_be_rendered_witness :
  make_stats_embed (env_gone 0) (get_stats (poll_a_message stray_label)) (DataPoll poll_a)
  = Raise ZeroDivisionError.
Proof.
  apply unvoted_poll_cannot_be_rendered.
  intros r Hr Hrec. apply elem_of_cons in Hr as [-> | Hr]; [reflexivity |].
  apply list_elem_of_singleton in Hr as ->. reflexivity.
Defined.

Lemma map_result_make_field_names (env : Env) (sum_of_votes : Z)
      (stats : list (string * Z)) :
  forall fields,
    map_result (make_field env sum_of_votes) stats = Ok fields ->
    fields.*1 = map field_name stats.
Proof.
  induction stats as [|item stats IH]; intros fields H; simpl in H.
  - inversion H. reflexivity.
  - unfold make_field at 1 in H. destruct (sum_of_votes =? 0); [discriminate |].
    destruct (env_round_ratio env item.2 sum_of_votes 10) as [tenths|e];
      [| discriminate].
    destruct (env_round_ratio env item.2 sum_of_votes 100) as [percent|e];
      [| discriminate].
    simpl in H.
    destruct (map_result (make_field env sum_of_votes) stats) as [rest|e];
      [| discriminate].
    simpl in H. inversion H; subst. rewrite fmap_cons. cbn [map].
    rewrite (IH rest eq_refl). reflexivity.
Qed.

(** X20: [make_stats_embed] can return an embed only when it is handed the
    stored dict and the counts do not add up to zero (or there is nothing
    to render); for a fetched message as data, and for a tally that is not
    empty and adds up to zero, it raises. *)
Theorem make_stats_embed_returns_only_if (env : Env) (stats : list (string * Z))
        (data : EmbedData) (embed : Embed) :
  make_stats_embed env stats data = Ok embed ->
  (exists p, data = DataPoll p) /\
  (stats = [] \/ foldr Z.add 0 (map snd stats) <> 0).
Proof.
  unfold make_stats_embed. intros H.
  destruct data as [p | m]; [| discriminate]. split; [eauto |].
  destruct stats as [|item stats]; [left; reflexivity | right].
  intros Hsum. rewrite Hsum in H. simpl in H. discriminate.
Qed.

Lemma make_stats_embed_returns_only_if_witness :
  foldr Z.add 0 (map snd (get_stats (poll_a_message three_and_one))) <> 0.
Proof.
  destruct (make_stats_embed (env_gone 0) (get_stats (poll_a_message three_and_one))
              (DataPoll poll_a)) as [embed|e] eqn:H; [| vm_compute in H; discriminate].
  destruct (make_stats_embed_returns_only_if _ _ _ _ H) as [_ [Hempty | Hsum]];
    [discriminate | exact Hsum].
Defined.

(** X21: an embed that [make_stats_embed] returns is titled
    [Duck poll stats], links to the stored guild, channel and message ids,
    and has one field per entry of the tally, in the tally's order, named
    by label and count. *)
Theorem make_stats_embed_layout (env : Env) (stats : list (string * Z))
        (data : EmbedData) (embed : Embed) :
  make_stats_embed env stats data = Ok embed ->
  e_title embed = "Duck poll stats" /\
  (e_fields embed).*1 = map field_name stats /\
  exists p, data = DataPoll p /\
            e_description embed =
            "[Jump to message](https://discord.com/channels/"
              +:+ pretty (guild_id p) +:+ "/" +:+ pretty (channel_id p)
              +:+ "/" +:+ pretty (message_id p) +:+ ")".
Proof.
  unfold make_stats_embed. intros H.
  destruct data as [p | m]; [| discriminate]. simpl in H.
  destruct (map_result _ stats) as [fields|e] eqn:Hfields; [| discriminate].
  simpl in H. inversion H; subst; clear H. simpl.
  repeat split; [| eauto].
  eapply map_result_make_field_names. exact Hfields.
Qed.

Lemma make_stats_embed_layout_witness :
  exists embed,
    make_stats_embed (env_gone 0) (get_stats (poll_a_message three_and_one))
                     (DataPoll poll_a) = Ok embed /\
    (e_fields embed).*1 = map field_name (get_stats (poll_a_message three_and_one)).
Proof.
  destruct (make_stats_embed (env_gone 0) (get_stats (poll_a_message three_and_one))
              (DataPoll poll_a)) as [embed|e] eqn:H; [| vm_compute in H; discriminate].
  exists embed. split; [reflexivity |].
  apply (make_stats_embed_layout _ _ _ _ H).
Defined.
